(** * Clean-architecture user scenario: a shallow embedding

    The TypeScript program wires five classes by constructor injection
    (main.ts): a [Database] holding an array of users, a [Repository] that
    delegates to it, a [Presenter] that writes into a shared view-model
    object, an [Interactor] with the two use cases, and a [Controller] in
    front of it.  Every method is synchronous, returns [void] or a value,
    and may [throw new Error(..)].

    Methods are embedded as computations in a state-and-exception monad
    over a [World] holding the mutable parts of the program: the [items]
    array of the database, and a heap of JavaScript objects in which the
    view model lives, so that the reference held by the presenter and the
    one held by main.ts are one and the same location. *)

From Stdlib Require Import String List Lia.
From stdpp Require Import base option list gmap strings fin_maps.
Import ListNotations.
Local Open Scope string_scope.
Local Open Scope list_scope.

(** ** Values *)

(** A property typed [string] that may be absent ([undefined]) at run time,
    such as [username?: string], is an [option string]. *)

(** [!v] for such a property: true for [undefined] and for the empty
    string, false for every other string. *)
Definition falsy (v : option string) : bool :=
  match v with
  | None => true
  | Some s => String.eqb s ""
  end.

(** The string held by a property once a [!v] guard has excluded
    [undefined]. *)
Definition str (v : option string) : string := default "" v.

(** [class User { constructor(public id, public username, public password) }],
    as the README gives it. *)
Module User.
Record t : Type := new { id : string; username : string; password : string }.
End User.

(** The request object.  The controller builds [{ id }] or
    [{ id, username }]; the interactor reads [id], [username] and
    [password] from it, so all three are properties that may be absent. *)
Module InputData.
Record t : Type := new
    { id : option string; username : option string; password : option string }.
End InputData.

(** The object literal [{ id: user.id, username: user.username }]. *)
Module OutputData.
Record t : Type := new { id : string; username : string }.
End OutputData.

(** [new Error(message)]: the one kind of exception the program throws. *)
Inductive exn : Type := Error (message : string).

(** ** The world *)

Definition loc : Type := positive.

(** Calls seen by the test doubles wrapped around the collaborators of the
    interactor (see [Spy] below); the program itself never reads or writes
    this log. *)
Inductive Call : Type :=
| CallGetUser (id : string)
| CallCreateUser (user : User.t)
| CallPresent (outputData : OutputData.t).

Record World : Type := mkWorld
  { items : list User.t;                    (* Database.items *)
    heap : gmap loc (gmap string string);   (* objects: property name to value *)
    calls : list Call }.

Definition set_items (f : list User.t -> list User.t) (w : World) : World :=
  {| items := f (items w); heap := heap w; calls := calls w |}.

Definition set_heap
    (f : gmap loc (gmap string string) -> gmap loc (gmap string string))
    (w : World) : World :=
  {| items := items w; heap := f (heap w); calls := calls w |}.

Definition set_calls (f : list Call -> list Call) (w : World) : World :=
  {| items := items w; heap := heap w; calls := f (calls w) |}.

(** ** The monad: state passing with exceptions

    A [throw] leaves the world as it is at that point: JavaScript does not
    roll anything back. *)

Definition M (A : Type) : Type := World -> (exn + A) * World.

Definition ret {A} (a : A) : M A := fun w => (inr a, w).

Definition throw {A} (e : exn) : M A := fun w => (inl e, w).

Definition bind {A B} (m : M A) (k : A -> M B) : M B :=
  fun w =>
    match m w with
    | (inl e, w') => (inl e, w')
    | (inr a, w') => k a w'
    end.

Definition reads {A} (f : World -> A) : M A := fun w => (inr (f w), w).

Definition modify (f : World -> World) : M unit := fun w => (inr tt, f w).

Declare Scope js_scope.
Delimit Scope js_scope with js.
Notation "x <- m ;; k" := (bind m (fun x => k))
  (at level 100, m at next level, right associativity) : js_scope.
Notation "m ;; k" := (bind m (fun _ => k))
  (at level 100, right associativity) : js_scope.
Local Open Scope js_scope.

(** Outcome of a run. *)
Definition succeeds {A} (r : (exn + A) * World) : bool :=
  match fst r with inr _ => true | inl _ => false end.

Definition thrown {A} (r : (exn + A) * World) : option exn :=
  match fst r with inl e => Some e | inr _ => None end.

(** [o.k = v] on the object at [o]. *)
Definition setProp (o : loc) (k v : string) : M unit :=
  modify (set_heap (alter (insert k v) o)).

(** ** Interfaces

    An object seen through an interface is the record of its methods. *)

(** [interface DatabaseInterface<T> { get(id: string): T; create(item: T): void }] *)
Module DatabaseInterface.
Record t (T : Type) : Type := new
  { get : string -> M T; create : T -> M unit }.
Arguments new {T}.
Arguments get {T}.
Arguments create {T}.
End DatabaseInterface.

(** Modelled from the spec: the declaration of [RepositoryInterface] is not
    among the sources.  Its operations are the two of the Storage Gateway,
    fetch by identifier and insert, under the names by which [Repository]
    implements them and the interactor calls them. *)
Module RepositoryInterface.
Record t : Type := new
  { getUser : string -> M User.t; createUser : User.t -> M unit }.
End RepositoryInterface.

(** Modelled from the spec: the declaration of [PresenterInterface] is not
    among the sources.  Its one operation is the Output Formatter's
    [present], which returns nothing. *)
Module PresenterInterface.
Record t : Type := new { present : OutputData.t -> M unit }.
End PresenterInterface.

(** Modelled from the spec: the declaration of [InteractorInterface] is not
    among the sources.  Its operations are the two of the dispatch
    contract, read and write, under the names by which [Interactor]
    implements them and the controller calls them. *)
Module InteractorInterface.
Record t : Type := new
  { executeGetUser : InputData.t -> M unit;
    executeCreateUser : InputData.t -> M unit }.
End InteractorInterface.

(** ** Classes

    A class is a module; the private fields set by its constructor are the
    variables of a section, and [new] builds the object. *)

(** [class Database<T>], at [T = User] as main.ts instantiates it; its
    private [items] array is the [items] component of the world.  [find]
    returns the first element that satisfies the test, or [undefined];
    a user is an object, so [!item] holds for [undefined] only. *)
Module Database.
Definition get (id : string) : M User.t :=
  its <- reads items ;;
  let item := List.find (fun item => String.eqb (User.id item) id) its in
  match item with
  | None => throw (Error "Item not found")
  | Some item => ret item
  end.

Definition create (item : User.t) : M unit :=
  modify (set_items (fun its => its ++ [item])).

Definition new : DatabaseInterface.t User.t :=
  DatabaseInterface.new get create.
End Database.

Module Repository.
Section Instance.
Variable database : DatabaseInterface.t User.t.

Definition getUser (id : string) : M User.t :=
  DatabaseInterface.get database id.

Definition createUser (user : User.t) : M unit :=
  DatabaseInterface.create database user.

Definition new : RepositoryInterface.t :=
  RepositoryInterface.new getUser createUser.
End Instance.
End Repository.

(** The presenter holds a reference to the view model, not a copy. *)
Module Presenter.
Section Instance.
Variable viewModel : loc.

Definition present (outputData : OutputData.t) : M unit :=
  setProp viewModel "id" (OutputData.id outputData) ;;
  setProp viewModel "username" (OutputData.username outputData).

Definition new : PresenterInterface.t := PresenterInterface.new present.
End Instance.
End Presenter.

Module Interactor.
Section Instance.
Variable userRepository : RepositoryInterface.t.
Variable presenter : PresenterInterface.t.

Definition executeGetUser (inputData : InputData.t) : M unit :=
  if falsy (InputData.id inputData) then throw (Error "id is required")
  else
    user <- RepositoryInterface.getUser userRepository
              (str (InputData.id inputData)) ;;
    let outputData := OutputData.new (User.id user) (User.username user) in
    PresenterInterface.present presenter outputData.

Definition executeCreateUser (inputData : InputData.t) : M unit :=
  if falsy (InputData.id inputData) then throw (Error "id is required")
  else if falsy (InputData.password inputData)
  then throw (Error "password is required")
  else if falsy (InputData.username inputData)
  then throw (Error "username is required")
  else
    let user :=
      User.new (str (InputData.id inputData))
               (str (InputData.username inputData))
               (str (InputData.password inputData)) in
    RepositoryInterface.createUser userRepository user ;;
    let outputData := OutputData.new (User.id user) (User.username user) in
    PresenterInterface.present presenter outputData.

Definition new : InteractorInterface.t :=
  InteractorInterface.new executeGetUser executeCreateUser.
End Instance.
End Interactor.

Module Controller.
Section Instance.
Variable interactor : InteractorInterface.t.

(** [const inputData: InputData = { id }] *)
Definition getUser (id : string) : M unit :=
  let inputData := InputData.new (Some id) None None in
  InteractorInterface.executeGetUser interactor inputData.

(** [const inputData: InputData = { id, username }] *)
Definition createUser (id username : string) : M unit :=
  let inputData := InputData.new (Some id) (Some username) None in
  InteractorInterface.executeCreateUser interactor inputData.
End Instance.
End Controller.

(** ** Test doubles

    A spy wraps a collaborator: it appends the call to the log and then
    delegates, whatever the wrapped method does afterwards. *)
Module Spy.
Definition record (c : Call) : M unit :=
  modify (set_calls (fun cs => cs ++ [c])).

Definition repository (r : RepositoryInterface.t) : RepositoryInterface.t :=
  RepositoryInterface.new
    (fun id => record (CallGetUser id) ;; RepositoryInterface.getUser r id)
    (fun user =>
       record (CallCreateUser user) ;; RepositoryInterface.createUser r user).

Definition presenter (p : PresenterInterface.t) : PresenterInterface.t :=
  PresenterInterface.new
    (fun outputData =>
       record (CallPresent outputData) ;;
       PresenterInterface.present p outputData).
End Spy.

Definition isGateway (c : Call) : bool :=
  match c with CallGetUser _ | CallCreateUser _ => true | CallPresent _ => false end.

Definition isInsert (c : Call) : bool :=
  match c with CallCreateUser _ => true | _ => false end.

Definition isPresent (c : Call) : bool :=
  match c with CallPresent _ => true | _ => false end.

Definition gatewayCalls (w : World) : nat := length (List.filter isGateway (calls w)).
Definition insertCalls (w : World) : nat := length (List.filter isInsert (calls w)).
Definition presentCalls (w : World) : nat := length (List.filter isPresent (calls w)).

(** The results handed to [present], oldest first. *)
Definition presented (w : World) : list OutputData.t :=
  List.flat_map
    (fun c => match c with CallPresent o => [o] | _ => [] end) (calls w).

(** ** main.ts *)
Module Main.
(** [const viewModel: ViewModel = {}]: the address of the object. *)
Definition viewModel : loc := 1%positive.

(** The world once the constructors have run: an empty database and the
    view model [{}]. *)
Definition world : World :=
  {| items := []; heap := {[ viewModel := ∅ ]}; calls := [] |}.

Definition database := Database.new.
Definition repository := Repository.new database.
Definition presenter := Presenter.new viewModel.
Definition interactor := Interactor.new repository presenter.

(** [controller.getUser("1")], the one statement main.ts executes. *)
Definition execution : M unit := Controller.getUser interactor "1".
End Main.

(** The wiring of main.ts for a view model at [vm], and the same wiring
    with both collaborators of the interactor under a spy. *)
Definition wired (vm : loc) : InteractorInterface.t :=
  Interactor.new (Repository.new Database.new) (Presenter.new vm).

Definition spied (vm : loc) : InteractorInterface.t :=
  Interactor.new (Spy.repository (Repository.new Database.new))
                 (Spy.presenter (Presenter.new vm)).

(** The two use cases of the spied wiring. *)
Definition runGetUser (vm : loc) (inputData : InputData.t) : M unit :=
  InteractorInterface.executeGetUser (spied vm) inputData.

Definition runCreateUser (vm : loc) (inputData : InputData.t) : M unit :=
  InteractorInterface.executeCreateUser (spied vm) inputData.

(** A call through the spied presenter, and the world it leaves. *)
Definition deliver (vm : loc) (outputData : OutputData.t) : M unit :=
  PresenterInterface.present (Spy.presenter (Presenter.new vm)) outputData.

Definition delivered (vm : loc) (outputData : OutputData.t) (w : World) : World :=
  snd (deliver vm outputData w).

(** The two assignments of [present], as a function on the object. *)
Definition assign (outputData : OutputData.t) (o : gmap string string)
  : gmap string string :=
  <["username" := OutputData.username outputData]>
    (<["id" := OutputData.id outputData]> o).

(** What a stored user shows outside the interactor. *)
Definition public (u : User.t) : OutputData.t :=
  OutputData.new (User.id u) (User.username u).

(** ** Notions used by the statements *)

(** Following the spec's words for the write request: the first required
    field that is empty or missing, in the order identifier, secret,
    display name ([id], [password], [username] in the code); [None] when
    all three are present. *)
Definition firstMissing (inputData : InputData.t) : option string :=
  if falsy (InputData.id inputData) then Some "id"
  else if falsy (InputData.password inputData) then Some "password"
  else if falsy (InputData.username inputData) then Some "username"
  else None.

(** Two worlds that differ at most in the stored secrets (and in what the
    gateway spy saw of them). *)
Definition sameButSecrets (w1 w2 : World) : Prop :=
  List.map public (items w1) = List.map public (items w2)
  /\ heap w1 = heap w2
  /\ presented w1 = presented w2.

(** A script of use-case calls, run statement by statement; the first
    throw ends it. *)
Inductive Op : Type :=
| Read (inputData : InputData.t)
| Store (inputData : InputData.t).

Definition perform (vm : loc) (op : Op) : M unit :=
  match op with
  | Read inputData => runGetUser vm inputData
  | Store inputData => runCreateUser vm inputData
  end.

Fixpoint performAll (vm : loc) (ops : list Op) : M unit :=
  match ops with
  | [] => ret tt
  | op :: rest => perform vm op ;; performAll vm rest
  end.

(** ** The controller as seen by its caller *)

(** The two calls a caller of the controller can make. *)
Inductive Request : Type :=
| GetUser (id : string)
| CreateUser (id username : string).

Definition handle (interactor : InteractorInterface.t) (r : Request) : M unit :=
  match r with
  | GetUser id => Controller.getUser interactor id
  | CreateUser id username => Controller.createUser interactor id username
  end.

(** A caller that makes the calls one after the other and carries on after
    a throw: the world after the last call. *)
Definition serve (interactor : InteractorInterface.t) (rs : list Request)
    (w : World) : World :=
  List.fold_left (fun w r => snd (handle interactor r w)) rs w.

(** Collaborators that fail, to exercise the interactor's error paths: a
    gateway that rejects every call and a presenter that cannot display. *)
Module Stub.
Definition repository : RepositoryInterface.t :=
  RepositoryInterface.new
    (fun _ => throw (Error "Connection lost"))
    (fun _ => throw (Error "Duplicate id")).

Definition presenter : PresenterInterface.t :=
  PresenterInterface.new (fun _ => throw (Error "View unavailable")).
End Stub.

(** A collaborator leaves the spies' log alone: the log is no value of
    the program, so this holds of whatever implements the interfaces. *)
Definition quiet {A} (m : M A) : Prop :=
  forall w : World, calls (snd (m w)) = calls w.

Definition quietRepository (r : RepositoryInterface.t) : Prop :=
  (forall id, quiet (RepositoryInterface.getUser r id))
  /\ (forall user, quiet (RepositoryInterface.createUser r user)).

Definition quietPresenter (p : PresenterInterface.t) : Prop :=
  forall outputData, quiet (PresenterInterface.present p outputData).

(** A presenter holds no reference to the database: its [present] leaves
    the items alone. *)
Definition keepsItems (p : PresenterInterface.t) : Prop :=
  forall outputData (w : World),
    items (snd (PresenterInterface.present p outputData w)) = items w.

(** * Properties *)

Example main_throws :
  Main.execution Main.world = (inl (Error "Item not found"), Main.world).
Proof. reflexivity. Qed.

Example write_then_read :
  let w1 := snd (runCreateUser Main.viewModel
                   (InputData.new (Some "1") (Some "alice") (Some "s3cr3t"))
                   Main.world) in
  let w2 := snd (runGetUser Main.viewModel (InputData.new (Some "1") None None) w1) in
  presented w2 = [OutputData.new "1" "alice"; OutputData.new "1" "alice"]
  /\ heap w2 !! Main.viewModel
     = Some (<["username" := "alice"]> (<["id" := "1"]> ∅)).
Proof. vm_compute. split; reflexivity. Qed.

(** ** Running the collaborators *)

Lemma Database_get_run (id : string) (w : World) :
  Database.get id w =
  match List.find (fun item => String.eqb (User.id item) id) (items w) with
  | None => (inl (Error "Item not found"), w)
  | Some item => (inr item, w)
  end.
Proof.
  unfold Database.get, bind, reads.
  destruct (List.find _ (items w)); reflexivity.
Qed.

Lemma Database_create_run (item : User.t) (w : World) :
  Database.create item w = (inr tt, set_items (fun its => its ++ [item]) w).
Proof. reflexivity. Qed.

Lemma present_run (vm : loc) (o : OutputData.t) (w : World) :
  Presenter.present vm o w = (inr tt, set_heap (alter (assign o) vm) w).
Proof.
  unfold Presenter.present, setProp, bind, modify, set_heap; simpl.
  rewrite alter_alter_eq. reflexivity.
Qed.

Lemma delivered_eq (vm : loc) (o : OutputData.t) (w : World) :
  delivered vm o w =
  set_heap (alter (assign o) vm) (set_calls (fun cs => cs ++ [CallPresent o]) w).
Proof.
  unfold delivered, deliver, Spy.presenter, PresenterInterface.present,
    Presenter.new, bind, Spy.record, modify.
  rewrite present_run. reflexivity.
Qed.

Lemma deliver_run (vm : loc) (o : OutputData.t) (w : World) :
  deliver vm o w = (inr tt, delivered vm o w).
Proof.
  unfold delivered. destruct (deliver vm o w) as [[e|[]] w'] eqn:E;
    [|reflexivity].
  unfold deliver, Spy.presenter, PresenterInterface.present,
    Presenter.new, bind, Spy.record, modify in E.
  rewrite present_run in E. discriminate.
Qed.

(** The read use case, run on the spied wiring. *)
Lemma runGetUser_eq (vm : loc) (inputData : InputData.t) (w : World) :
  runGetUser vm inputData w =
  if falsy (InputData.id inputData) then (inl (Error "id is required"), w)
  else
    let id := str (InputData.id inputData) in
    let w1 := set_calls (fun cs => cs ++ [CallGetUser id]) w in
    match List.find (fun item => String.eqb (User.id item) id) (items w) with
    | None => (inl (Error "Item not found"), w1)
    | Some user => (inr tt, delivered vm (public user) w1)
    end.
Proof.
  unfold runGetUser, spied, Interactor.new; simpl.
  unfold Interactor.executeGetUser.
  destruct (falsy (InputData.id inputData)); [reflexivity|].
  unfold bind at 1. simpl. unfold bind at 1. simpl.
  unfold Repository.getUser; simpl. rewrite Database_get_run. simpl.
  destruct (List.find _ (items w)) as [user|]; [|reflexivity].
  apply deliver_run.
Qed.

(** The write use case, run on the spied wiring. *)
Lemma runCreateUser_eq (vm : loc) (inputData : InputData.t) (w : World) :
  runCreateUser vm inputData w =
  match firstMissing inputData with
  | Some field => (inl (Error (field ++ " is required")), w)
  | None =>
      let user :=
        User.new (str (InputData.id inputData))
                 (str (InputData.username inputData))
                 (str (InputData.password inputData)) in
      (inr tt,
       delivered vm (public user)
         (set_items (fun its => its ++ [user])
            (set_calls (fun cs => cs ++ [CallCreateUser user]) w)))
  end.
Proof.
  unfold runCreateUser, spied, Interactor.new, firstMissing; simpl.
  unfold Interactor.executeCreateUser.
  destruct (falsy (InputData.id inputData)); [reflexivity|].
  destruct (falsy (InputData.password inputData)); [reflexivity|].
  destruct (falsy (InputData.username inputData)); [reflexivity|].
  unfold bind at 1. simpl. unfold bind at 1. simpl.
  apply deliver_run.
Qed.

(** ** What a delivery changes *)

Lemma items_delivered vm o w : items (delivered vm o w) = items w.
Proof. rewrite delivered_eq. reflexivity. Qed.

Lemma calls_delivered vm o w :
  calls (delivered vm o w) = calls w ++ [CallPresent o].
Proof. rewrite delivered_eq. reflexivity. Qed.

Lemma heap_delivered vm o w :
  heap (delivered vm o w) = alter (assign o) vm (heap w).
Proof. rewrite delivered_eq. reflexivity. Qed.

Lemma presented_delivered vm o w :
  presented (delivered vm o w) = presented w ++ [o].
Proof.
  unfold presented. rewrite calls_delivered, List.flat_map_app. reflexivity.
Qed.

Lemma presented_set_items f w : presented (set_items f w) = presented w.
Proof. reflexivity. Qed.

Lemma presented_gateway_call (c : Call) (w : World) :
  isGateway c = true ->
  presented (set_calls (fun cs => cs ++ [c]) w) = presented w.
Proof.
  intros H. unfold presented; simpl. rewrite List.flat_map_app; simpl.
  destruct c; try discriminate H; apply List.app_nil_r.
Qed.

Lemma count_snoc (f : Call -> bool) (cs : list Call) (c : Call) :
  length (List.filter f (cs ++ [c])) =
  length (List.filter f cs) + (if f c then 1 else 0).
Proof.
  rewrite List.filter_app, List.length_app. simpl.
  destruct (f c); reflexivity.
Qed.

Lemma falsy_Some_false (s : string) : s <> "" -> falsy (Some s) = false.
Proof. intros H. simpl. apply String.eqb_neq, H. Qed.

Lemma find_no_match (i : string) (its : list User.t) :
  Forall (fun u => User.id u <> i) its ->
  List.find (fun item => String.eqb (User.id item) i) its = None.
Proof.
  induction 1 as [|u its Hu _ IH]; simpl; [reflexivity|].
  apply String.eqb_neq in Hu. rewrite Hu. exact IH.
Qed.

Lemma find_first_match (i : string) (pre post : list User.t) (u : User.t) :
  Forall (fun u => User.id u <> i) pre ->
  User.id u = i ->
  List.find (fun item => String.eqb (User.id item) i) (pre ++ u :: post)
  = Some u.
Proof.
  intros Hpre Hu. induction Hpre as [|v pre Hv _ IH]; simpl.
  - rewrite Hu, String.eqb_refl. reflexivity.
  - apply String.eqb_neq in Hv. rewrite Hv. exact IH.
Qed.

Lemma find_split (i : string) (its : list User.t) (u : User.t) :
  List.find (fun item => String.eqb (User.id item) i) its = Some u ->
  exists pre post,
    its = pre ++ u :: post
    /\ Forall (fun v => User.id v <> i) pre
    /\ User.id u = i.
Proof.
  induction its as [|v its IH]; simpl; [discriminate|].
  destruct (String.eqb (User.id v) i) eqn:E.
  - intros [= ->]. exists [], its. apply String.eqb_eq in E.
    repeat split; [constructor | exact E].
  - intros F. destruct (IH F) as (pre & post & -> & Hpre & Hu).
    exists (v :: pre), post. apply String.eqb_neq in E.
    repeat split; [constructor; assumption | exact Hu].
Qed.

(** ** The read use case *)

(** C6, as amended: a read request whose identifier is empty or missing
    fails with the error "id is required", whatever repository and
    presenter the interactor was built with, and leaves the whole world,
    call log of the spies included, as it found it: no call reaches the
    storage gateway. *)
Theorem executeGetUser_requires_id
    (repo : RepositoryInterface.t) (pres : PresenterInterface.t)
    (inputData : InputData.t) (w : World) :
  falsy (InputData.id inputData) = true ->
  let run :=
    InteractorInterface.executeGetUser
      (Interactor.new (Spy.repository repo) (Spy.presenter pres)) inputData w in
  run = (inl (Error "id is required"), w)
  /\ gatewayCalls (snd run) = gatewayCalls w
  /\ calls (snd run) = calls w.
Proof.
  intros H. cbv zeta.
  assert (E : InteractorInterface.executeGetUser
                (Interactor.new (Spy.repository repo) (Spy.presenter pres))
                inputData w = (inl (Error "id is required"), w)).
  { unfold Interactor.new, InteractorInterface.executeGetUser,
      Interactor.executeGetUser. rewrite H. reflexivity. }
  rewrite E. repeat split.
Qed.

Lemma executeGetUser_requires_id_witness :
  falsy (InputData.id (InputData.new (Some "") None None)) = true
  /\ InteractorInterface.executeGetUser
       (Interactor.new (Spy.repository Main.repository)
                       (Spy.presenter Main.presenter))
       (InputData.new (Some "") None None) Main.world
     = (inl (Error "id is required"), Main.world).
Proof.
  split; [reflexivity|].
  apply (executeGetUser_requires_id Main.repository Main.presenter
           (InputData.new (Some "") None None) Main.world).
  reflexivity.
Defined.

(** C6, as stated, fails: the message is not "identifier is required". *)
Lemma executeGetUser_message_not_identifier :
  ~ (forall (vm : loc) (inputData : InputData.t) (w : World),
       falsy (InputData.id inputData) = true ->
       thrown (runGetUser vm inputData w) = Some (Error "identifier is required")).
Proof.
  intros H.
  specialize (H Main.viewModel (InputData.new (Some "") None None) Main.world
                eq_refl).
  vm_compute in H. discriminate H.
Qed.

(** C5, as amended: a read of a non-empty identifier that matches no stored
    record fails with the error "Item not found"; it is the error raised by
    [Database.get], which reaches the caller of the interactor and of the
    controller as it was thrown; the presenter is not called, the one call
    the spies see is the fetch, and neither the stored items nor the heap
    change. *)
Theorem executeGetUser_not_found
    (vm : loc) (inputData : InputData.t) (i : string) (w : World) :
  InputData.id inputData = Some i ->
  i <> "" ->
  Forall (fun u => User.id u <> i) (items w) ->
  let run := runGetUser vm inputData w in
  thrown run = Some (Error "Item not found")
  /\ thrown run = thrown (Database.get i w)
  /\ thrown (Controller.getUser (spied vm) i w) = thrown run
  /\ presentCalls (snd run) = presentCalls w
  /\ calls (snd run) = calls w ++ [CallGetUser i]
  /\ items (snd run) = items w
  /\ heap (snd run) = heap w.
Proof.
  intros Hid Hi Hnone. cbv zeta.
  assert (F : List.find (fun item => String.eqb (User.id item) i) (items w)
              = None) by (apply find_no_match, Hnone).
  assert (E : runGetUser vm inputData w =
              (inl (Error "Item not found"),
               set_calls (fun cs => cs ++ [CallGetUser i]) w)).
  { rewrite runGetUser_eq, Hid, (falsy_Some_false i Hi). simpl.
    rewrite F. reflexivity. }
  assert (C : Controller.getUser (spied vm) i w =
              runGetUser vm (InputData.new (Some i) None None) w) by reflexivity.
  assert (E' : runGetUser vm (InputData.new (Some i) None None) w =
               runGetUser vm inputData w).
  { rewrite !runGetUser_eq, Hid. reflexivity. }
  rewrite C, E', Database_get_run, F, E.
  unfold thrown, presentCalls; simpl.
  rewrite count_snoc. simpl. repeat split. lia.
Qed.

Lemma executeGetUser_not_found_witness :
  thrown (runGetUser Main.viewModel (InputData.new (Some "1") None None) Main.world)
  = Some (Error "Item not found").
Proof.
  apply (executeGetUser_not_found Main.viewModel
           (InputData.new (Some "1") None None) "1" Main.world).
  - reflexivity.
  - discriminate.
  - constructor.
Defined.

(** C5, as stated, fails: the message is not "item not found". *)
Lemma executeGetUser_message_not_lowercase :
  ~ (forall (vm : loc) (inputData : InputData.t) (i : string) (w : World),
       InputData.id inputData = Some i ->
       i <> "" ->
       Forall (fun u => User.id u <> i) (items w) ->
       thrown (runGetUser vm inputData w) = Some (Error "item not found")).
Proof.
  intros H.
  assert (N : "1" <> "") by discriminate.
  specialize (H Main.viewModel (InputData.new (Some "1") None None) "1"
                Main.world eq_refl N (List.Forall_nil _)).
  vm_compute in H. discriminate H.
Qed.

(** The same use cases on the wiring of main.ts, without spies. *)
Lemma wired_getUser_run (vm : loc) (inputData : InputData.t) (w : World) :
  InteractorInterface.executeGetUser (wired vm) inputData w =
  if falsy (InputData.id inputData) then (inl (Error "id is required"), w)
  else
    let id := str (InputData.id inputData) in
    match List.find (fun item => String.eqb (User.id item) id) (items w) with
    | None => (inl (Error "Item not found"), w)
    | Some user => (inr tt, set_heap (alter (assign (public user)) vm) w)
    end.
Proof.
  unfold wired, Interactor.new, InteractorInterface.executeGetUser,
    Interactor.executeGetUser.
  destruct (falsy (InputData.id inputData)); [reflexivity|].
  unfold bind, Repository.new, RepositoryInterface.getUser,
    Repository.getUser, Database.new, DatabaseInterface.get.
  rewrite Database_get_run.
  destruct (List.find _ (items w)) as [user|]; [|reflexivity].
  apply present_run.
Qed.

Lemma wired_createUser_run (vm : loc) (inputData : InputData.t) (w : World) :
  InteractorInterface.executeCreateUser (wired vm) inputData w =
  match firstMissing inputData with
  | Some field => (inl (Error (field ++ " is required")), w)
  | None =>
      let user :=
        User.new (str (InputData.id inputData))
                 (str (InputData.username inputData))
                 (str (InputData.password inputData)) in
      (inr tt,
       set_heap (alter (assign (public user)) vm)
         (set_items (fun its => its ++ [user]) w))
  end.
Proof.
  unfold wired, Interactor.new, InteractorInterface.executeCreateUser,
    Interactor.executeCreateUser, firstMissing.
  destruct (falsy (InputData.id inputData)); [reflexivity|].
  destruct (falsy (InputData.password inputData)); [reflexivity|].
  destruct (falsy (InputData.username inputData)); [reflexivity|].
  unfold bind at 1. simpl. apply present_run.
Qed.

(** C9: a read never modifies storage.  Whether it succeeds or throws, with
    or without spies around the collaborators, the items of the database
    after the call are the items before it. *)
Theorem executeGetUser_preserves_items
    (vm : loc) (inputData : InputData.t) (w : World) :
  items (snd (InteractorInterface.executeGetUser (wired vm) inputData w))
  = items w
  /\ items (snd (runGetUser vm inputData w)) = items w.
Proof.
  rewrite wired_getUser_run, runGetUser_eq.
  destruct (falsy (InputData.id inputData)); [split; reflexivity|].
  cbv zeta.
  destruct (List.find _ (items w)) as [user|]; split; try reflexivity.
Qed.

(** On the wiring of main.ts, whose presenter cannot throw, a call of
    either use case invokes [present] exactly once when it succeeds and not
    at all when it throws; a write calls the gateway's insert exactly once
    when it succeeds (and not at all when it throws), and the database then
    holds one more item. *)
Lemma present_once_iff_success
    (vm : loc) (inputData : InputData.t) (w : World) :
  let r := runGetUser vm inputData w in
  let c := runCreateUser vm inputData w in
  presentCalls (snd r) = presentCalls w + (if succeeds r then 1 else 0)
  /\ presentCalls (snd c) = presentCalls w + (if succeeds c then 1 else 0)
  /\ insertCalls (snd c) = insertCalls w + (if succeeds c then 1 else 0)
  /\ length (items (snd c))
     = length (items w) + (if succeeds c then 1 else 0).
Proof.
  cbv zeta. rewrite runGetUser_eq, runCreateUser_eq.
  unfold presentCalls, insertCalls, succeeds.
  split.
  - destruct (falsy (InputData.id inputData)); cbn [fst snd]; [lia|].
    cbv zeta.
    destruct (List.find _ (items w)) as [user|]; cbn [fst snd].
    + rewrite calls_delivered, count_snoc. cbn [calls set_calls].
      rewrite count_snoc. simpl. lia.
    + cbn [calls set_calls]. rewrite count_snoc. simpl. lia.
  - destruct (firstMissing inputData) as [field|]; cbv zeta; cbn [fst snd].
    + repeat split; lia.
    + rewrite calls_delivered, items_delivered, !count_snoc.
      cbn [calls items set_calls set_items].
      rewrite !count_snoc, List.length_app. simpl. repeat split; lia.
Qed.

(** The use cases under spies, for any repository and presenter. *)
Lemma spied_executeGetUser_eq
    (repo : RepositoryInterface.t) (pres : PresenterInterface.t)
    (inputData : InputData.t) (w : World) :
  InteractorInterface.executeGetUser
    (Interactor.new (Spy.repository repo) (Spy.presenter pres)) inputData w =
  if falsy (InputData.id inputData) then (inl (Error "id is required"), w)
  else
    let id := str (InputData.id inputData) in
    match RepositoryInterface.getUser repo id
            (set_calls (fun cs => cs ++ [CallGetUser id]) w) with
    | (inl e, w1) => (inl e, w1)
    | (inr user, w1) =>
        PresenterInterface.present pres (public user)
          (set_calls (fun cs => cs ++ [CallPresent (public user)]) w1)
    end.
Proof.
  unfold Interactor.new, InteractorInterface.executeGetUser,
    Interactor.executeGetUser.
  destruct (falsy (InputData.id inputData)); [reflexivity|].
  destruct repo as [get create], pres as [present].
  unfold Spy.repository, Spy.presenter, Spy.record, modify.
  cbn [RepositoryInterface.getUser PresenterInterface.present].
  unfold bind. cbv zeta.
  destruct (get _ _) as [[e|user] w1]; reflexivity.
Qed.

Lemma spied_executeCreateUser_eq
    (repo : RepositoryInterface.t) (pres : PresenterInterface.t)
    (inputData : InputData.t) (w : World) :
  InteractorInterface.executeCreateUser
    (Interactor.new (Spy.repository repo) (Spy.presenter pres)) inputData w =
  match firstMissing inputData with
  | Some field => (inl (Error (field ++ " is required")), w)
  | None =>
      let user :=
        User.new (str (InputData.id inputData))
                 (str (InputData.username inputData))
                 (str (InputData.password inputData)) in
      match RepositoryInterface.createUser repo user
              (set_calls (fun cs => cs ++ [CallCreateUser user]) w) with
      | (inl e, w1) => (inl e, w1)
      | (inr _, w1) =>
          PresenterInterface.present pres (public user)
            (set_calls (fun cs => cs ++ [CallPresent (public user)]) w1)
      end
  end.
Proof.
  unfold Interactor.new, InteractorInterface.executeCreateUser,
    Interactor.executeCreateUser, firstMissing.
  destruct (falsy (InputData.id inputData)); [reflexivity|].
  destruct (falsy (InputData.password inputData)); [reflexivity|].
  destruct (falsy (InputData.username inputData)); [reflexivity|].
  destruct repo as [get create], pres as [present].
  unfold Spy.repository, Spy.presenter, Spy.record, modify.
  cbn [RepositoryInterface.createUser PresenterInterface.present].
  unfold bind. cbv zeta.
  destruct (create _ _) as [[e|[]] w1]; reflexivity.
Qed.

(** Counts across one spied gateway call and one spied [present]. *)
Lemma counts_after_gateway
    {A} (m : M A) (c : Call) (w : World) :
  quiet m -> isPresent c = false ->
  presentCalls (snd (m (set_calls (fun cs => cs ++ [c]) w))) = presentCalls w
  /\ insertCalls (snd (m (set_calls (fun cs => cs ++ [c]) w)))
     = insertCalls w + (if isInsert c then 1 else 0).
Proof.
  intros Q P. unfold presentCalls, insertCalls. rewrite Q.
  cbn [calls set_calls]. rewrite !count_snoc, P. split; lia.
Qed.

Lemma counts_after_present
    (m : M unit) (o : OutputData.t) (w : World) :
  quiet m ->
  presentCalls (snd (m (set_calls (fun cs => cs ++ [CallPresent o]) w)))
  = presentCalls w + 1
  /\ insertCalls (snd (m (set_calls (fun cs => cs ++ [CallPresent o]) w)))
     = insertCalls w.
Proof.
  intros Q. unfold presentCalls, insertCalls. rewrite Q.
  cbn [calls set_calls]. rewrite !count_snoc. cbn [isPresent isInsert].
  split; lia.
Qed.

(** C8, as amended: for any repository and presenter, a call of either use
    case invokes [present] exactly once when it succeeds, and a successful
    write calls the gateway's insert exactly once.  A call that fails has
    invoked [present] not at all, unless the failure is the throw of
    [present] itself, which then was invoked that once.  So with a
    presenter that never throws, as the one of main.ts, [present] is
    invoked once on success and never on failure. *)
Theorem present_once_unless_it_throws
    (repo : RepositoryInterface.t) (pres : PresenterInterface.t)
    (inputData : InputData.t) (w : World) :
  quietRepository repo ->
  quietPresenter pres ->
  let interactor :=
    Interactor.new (Spy.repository repo) (Spy.presenter pres) in
  let r := InteractorInterface.executeGetUser interactor inputData w in
  let c := InteractorInterface.executeCreateUser interactor inputData w in
  (succeeds r = true -> presentCalls (snd r) = presentCalls w + 1)
  /\ (succeeds c = true ->
      presentCalls (snd c) = presentCalls w + 1
      /\ insertCalls (snd c) = insertCalls w + 1)
  /\ (succeeds r = false ->
      presentCalls (snd r) = presentCalls w
      \/ (presentCalls (snd r) = presentCalls w + 1
          /\ exists o w1, PresenterInterface.present pres o w1 = r))
  /\ (succeeds c = false ->
      presentCalls (snd c) = presentCalls w
      \/ (presentCalls (snd c) = presentCalls w + 1
          /\ exists o w1, PresenterInterface.present pres o w1 = c))
  /\ ((forall o w0, succeeds (PresenterInterface.present pres o w0) = true) ->
      presentCalls (snd r) = presentCalls w + (if succeeds r then 1 else 0)
      /\ presentCalls (snd c) = presentCalls w + (if succeeds c then 1 else 0)).
Proof.
  intros [Qg Qc] Qp. cbv zeta.
  rewrite spied_executeGetUser_eq, spied_executeCreateUser_eq.
  assert (R :
    forall r0 : (exn + unit) * World,
      r0 = (if falsy (InputData.id inputData)
            then (inl (Error "id is required"), w)
            else
              let id := str (InputData.id inputData) in
              match RepositoryInterface.getUser repo id
                      (set_calls (fun cs => cs ++ [CallGetUser id]) w) with
              | (inl e, w1) => (inl e, w1)
              | (inr user, w1) =>
                  PresenterInterface.present pres (public user)
                    (set_calls
                       (fun cs => cs ++ [CallPresent (public user)]) w1)
              end) ->
      (succeeds r0 = true -> presentCalls (snd r0) = presentCalls w + 1)
      /\ (succeeds r0 = false ->
          presentCalls (snd r0) = presentCalls w
          \/ (presentCalls (snd r0) = presentCalls w + 1
              /\ exists o w1, PresenterInterface.present pres o w1 = r0))).
  { intros r0 ->.
    destruct (falsy (InputData.id inputData));
      [split; [discriminate | left; reflexivity]|].
    cbv zeta.
    destruct (counts_after_gateway
                (RepositoryInterface.getUser repo (str (InputData.id inputData)))
                (CallGetUser (str (InputData.id inputData))) w
                (Qg _) eq_refl) as (G & _).
    destruct (RepositoryInterface.getUser repo _ _) as [[e|user] w1];
      cbn [snd] in G.
    - split; [discriminate | left; exact G].
    - destruct (counts_after_present
                  (PresenterInterface.present pres (public user))
                  (public user) w1 (Qp _)) as (P & _).
      rewrite G in P.
      split; [intros _; exact P|].
      intros _. right. split; [exact P|]. eexists _, _. reflexivity. }
  assert (C :
    forall c0 : (exn + unit) * World,
      c0 = (match firstMissing inputData with
            | Some field => (inl (Error (field ++ " is required")), w)
            | None =>
                let user :=
                  User.new (str (InputData.id inputData))
                           (str (InputData.username inputData))
                           (str (InputData.password inputData)) in
                match RepositoryInterface.createUser repo user
                        (set_calls (fun cs => cs ++ [CallCreateUser user]) w)
                with
                | (inl e, w1) => (inl e, w1)
                | (inr _, w1) =>
                    PresenterInterface.present pres (public user)
                      (set_calls
                         (fun cs => cs ++ [CallPresent (public user)]) w1)
                end
            end) ->
      (succeeds c0 = true ->
       presentCalls (snd c0) = presentCalls w + 1
       /\ insertCalls (snd c0) = insertCalls w + 1)
      /\ (succeeds c0 = false ->
          presentCalls (snd c0) = presentCalls w
          \/ (presentCalls (snd c0) = presentCalls w + 1
              /\ exists o w1, PresenterInterface.present pres o w1 = c0))).
  { intros c0 ->.
    destruct (firstMissing inputData) as [field|];
      [split; [discriminate | left; reflexivity]|].
    cbv zeta.
    set (user := User.new (str (InputData.id inputData))
                   (str (InputData.username inputData))
                   (str (InputData.password inputData))).
    destruct (counts_after_gateway
                (RepositoryInterface.createUser repo user)
                (CallCreateUser user) w (Qc _) eq_refl) as (G & I).
    destruct (RepositoryInterface.createUser repo _ _) as [[e|[]] w1];
      cbn [snd isInsert] in G, I.
    - split; [discriminate | left; exact G].
    - destruct (counts_after_present
                  (PresenterInterface.present pres (public user))
                  (public user) w1 (Qp _)) as (P & J).
      rewrite G in P. rewrite I in J.
      split; [intros _; split; assumption|].
      intros _. right. split; [exact P|]. eexists _, _. reflexivity. }
  destruct (R _ eq_refl) as (R1 & R2).
  destruct (C _ eq_refl) as (C1 & C2).
  split; [exact R1|]. split; [exact C1|].
  split; [exact R2|]. split; [exact C2|].
  intros Never.
  assert (N : forall x : (exn + unit) * World,
            (exists o w1, PresenterInterface.present pres o w1 = x) ->
            succeeds x = false -> False).
  { intros x (o & w1 & <-) F. rewrite Never in F. discriminate F. }
  split.
  - match goal with |- context [succeeds ?x] => destruct (succeeds x) eqn:S
    end.
    + apply R1. reflexivity.
    + destruct (R2 eq_refl) as [Z | (_ & P)]; [rewrite Z; lia|].
      exfalso. exact (N _ P S).
  - match goal with |- context [succeeds ?x] => destruct (succeeds x) eqn:S
    end.
    + apply C1. reflexivity.
    + destruct (C2 eq_refl) as [Z | (_ & P)]; [rewrite Z; lia|].
      exfalso. exact (N _ P S).
Qed.

Lemma Main_repository_quiet : quietRepository Main.repository.
Proof.
  split; intros x w.
  - unfold Main.repository, Main.database, Repository.new, Database.new,
      RepositoryInterface.getUser, Repository.getUser, DatabaseInterface.get.
    rewrite Database_get_run. destruct (List.find _ (items w)); reflexivity.
  - reflexivity.
Qed.

Lemma Main_presenter_quiet : quietPresenter Main.presenter.
Proof.
  intros o w.
  unfold Main.presenter, Presenter.new, PresenterInterface.present.
  rewrite present_run. reflexivity.
Qed.

Lemma Stub_presenter_quiet : quietPresenter Stub.presenter.
Proof. intros o w. reflexivity. Qed.

Lemma present_once_unless_it_throws_witness :
  let c :=
    InteractorInterface.executeCreateUser
      (Interactor.new (Spy.repository Main.repository)
                      (Spy.presenter Main.presenter))
      (InputData.new (Some "1") (Some "alice") (Some "s3cr3t")) Main.world in
  succeeds c = true
  /\ presentCalls (snd c) = presentCalls Main.world + 1
  /\ insertCalls (snd c) = insertCalls Main.world + 1.
Proof.
  cbv zeta. split; [reflexivity|].
  apply (present_once_unless_it_throws Main.repository Main.presenter
           (InputData.new (Some "1") (Some "alice") (Some "s3cr3t"))
           Main.world Main_repository_quiet Main_presenter_quiet).
  reflexivity.
Defined.

(** C8, as stated, fails: with a presenter that throws, a valid write fails
    and yet [present] was invoked once. *)
Lemma present_invoked_by_failing_call :
  ~ (forall (repo : RepositoryInterface.t) (pres : PresenterInterface.t)
            (inputData : InputData.t) (w : World),
       quietRepository repo ->
       quietPresenter pres ->
       let interactor :=
         Interactor.new (Spy.repository repo) (Spy.presenter pres) in
       let r := InteractorInterface.executeGetUser interactor inputData w in
       let c := InteractorInterface.executeCreateUser interactor inputData w in
       presentCalls (snd r) = presentCalls w + (if succeeds r then 1 else 0)
       /\ presentCalls (snd c) = presentCalls w + (if succeeds c then 1 else 0)
       /\ (succeeds c = true -> insertCalls (snd c) = insertCalls w + 1)).
Proof.
  intros H.
  destruct (H Main.repository Stub.presenter
              (InputData.new (Some "1") (Some "alice") (Some "s3cr3t"))
              Main.world Main_repository_quiet Stub_presenter_quiet)
    as (_ & C & _).
  vm_compute in C. discriminate C.
Qed.

(** ** The write use case *)

(** C2: the three required fields are checked in the order identifier,
    secret, display name, the first empty or missing one deciding the
    error, which names it ("id", "password", "username" in the code); the
    call throws before anything else runs, so whatever repository and
    presenter the interactor holds, the world and the spies' log are
    untouched: no gateway call. *)
Theorem executeCreateUser_validation_order
    (repo : RepositoryInterface.t) (pres : PresenterInterface.t)
    (inputData : InputData.t) (field : string) (w : World) :
  firstMissing inputData = Some field ->
  let run :=
    InteractorInterface.executeCreateUser
      (Interactor.new (Spy.repository repo) (Spy.presenter pres)) inputData w in
  run = (inl (Error (field ++ " is required")), w)
  /\ gatewayCalls (snd run) = gatewayCalls w
  /\ calls (snd run) = calls w
  /\ items (snd run) = items w.
Proof.
  intros H. cbv zeta.
  assert (E : InteractorInterface.executeCreateUser
                (Interactor.new (Spy.repository repo) (Spy.presenter pres))
                inputData w = (inl (Error (field ++ " is required")), w)).
  { unfold Interactor.new, InteractorInterface.executeCreateUser,
      Interactor.executeCreateUser.
    unfold firstMissing in H.
    destruct (falsy (InputData.id inputData));
      [injection H as <-; reflexivity|].
    destruct (falsy (InputData.password inputData));
      [injection H as <-; reflexivity|].
    destruct (falsy (InputData.username inputData));
      [injection H as <-; reflexivity|discriminate H]. }
  rewrite E. repeat split.
Qed.

(** The precedence, spelled out on the definition the theorem uses. *)
Lemma firstMissing_order (inputData : InputData.t) :
  (falsy (InputData.id inputData) = true ->
   firstMissing inputData = Some "id")
  /\ (falsy (InputData.id inputData) = false ->
      falsy (InputData.password inputData) = true ->
      firstMissing inputData = Some "password")
  /\ (falsy (InputData.id inputData) = false ->
      falsy (InputData.password inputData) = false ->
      falsy (InputData.username inputData) = true ->
      firstMissing inputData = Some "username")
  /\ (falsy (InputData.id inputData) = false ->
      falsy (InputData.password inputData) = false ->
      falsy (InputData.username inputData) = false ->
      firstMissing inputData = None).
Proof.
  unfold firstMissing. repeat split; intros; 
    repeat match goal with H : falsy _ = _ |- _ => rewrite H; clear H end;
    reflexivity.
Qed.

Lemma executeCreateUser_validation_order_witness :
  firstMissing (InputData.new (Some "1") None (Some "")) = Some "password"
  /\ InteractorInterface.executeCreateUser
       (Interactor.new (Spy.repository Main.repository)
                       (Spy.presenter Main.presenter))
       (InputData.new (Some "1") None (Some "")) Main.world
     = (inl (Error "password is required"), Main.world).
Proof.
  split; [reflexivity|].
  apply (executeCreateUser_validation_order Main.repository Main.presenter
           (InputData.new (Some "1") None (Some "")) "password" Main.world).
  reflexivity.
Defined.

(** ** The controller *)

(** C3, evaluated on the code: [Controller.createUser] takes an id and a
    username only and forwards [{ id, username }]; the interactor finds no
    password in it, so the call throws for every pair of arguments,
    whatever the collaborators, and the world is left as it was.  With
    ("1", "alice") the error is "password is required". *)
Theorem Controller_createUser_always_throws
    (repo : RepositoryInterface.t) (pres : PresenterInterface.t)
    (id username : string) (w : World) :
  Controller.createUser (Interactor.new repo pres) id username w
  = (inl (Error (if String.eqb id "" then "id is required"
                 else "password is required")), w)
  /\ Controller.createUser Main.interactor "1" "alice" Main.world
     = (inl (Error "password is required"), Main.world).
Proof.
  split; [|reflexivity].
  unfold Controller.createUser, Interactor.new,
    InteractorInterface.executeCreateUser, Interactor.executeCreateUser.
  simpl. destruct (String.eqb id ""); reflexivity.
Qed.

(** ** Writes followed by reads *)

Lemma firstMissing_present (i n p : string) :
  i <> "" -> n <> "" -> p <> "" ->
  firstMissing (InputData.new (Some i) (Some n) (Some p)) = None.
Proof.
  intros Hi Hn Hp. unfold firstMissing. cbn [InputData.id InputData.username
    InputData.password].
  rewrite (falsy_Some_false i Hi), (falsy_Some_false p Hp),
    (falsy_Some_false n Hn). reflexivity.
Qed.

(** A valid write succeeds and appends the new user to the items. *)
Lemma runCreateUser_valid (vm : loc) (i n p : string) (w : World) :
  i <> "" -> n <> "" -> p <> "" ->
  exists w1,
    runCreateUser vm (InputData.new (Some i) (Some n) (Some p)) w = (inr tt, w1)
    /\ items w1 = items w ++ [User.new i n p]
    /\ presented w1 = presented w ++ [OutputData.new i n].
Proof.
  intros Hi Hn Hp. rewrite runCreateUser_eq, (firstMissing_present i n p Hi Hn Hp).
  cbv zeta. eexists. split; [reflexivity|].
  rewrite items_delivered, presented_delivered. split; [reflexivity|].
  rewrite presented_set_items, presented_gateway_call; reflexivity.
Qed.

(** A read of [i] delivers the first stored user whose id is [i]. *)
Lemma runGetUser_first_match
    (vm : loc) (inputData : InputData.t) (i : string)
    (pre post : list User.t) (u : User.t) (w : World) :
  InputData.id inputData = Some i ->
  i <> "" ->
  items w = pre ++ u :: post ->
  Forall (fun v => User.id v <> i) pre ->
  User.id u = i ->
  exists w', runGetUser vm inputData w = (inr tt, w')
    /\ presented w' = presented w ++ [public u].
Proof.
  intros Hid Hi Hits Hpre Hu.
  rewrite runGetUser_eq, Hid, (falsy_Some_false i Hi). cbv zeta.
  change (str (Some i)) with i.
  rewrite Hits, (find_first_match i pre post u Hpre Hu).
  eexists. split; [reflexivity|].
  rewrite presented_delivered, presented_gateway_call; reflexivity.
Qed.

(** C1, as amended: when no record with the identifier is stored before a
    write with three non-empty fields, the write is accepted, and a later
    read of that identifier, after any inserts of other identifiers and any
    other change to the view model, delivers to the presenter exactly the
    identifier and display name of the write. *)
Theorem read_after_fresh_write
    (vm : loc) (i n p : string) (w : World) (readInput : InputData.t)
    (extra : list User.t) (hp : gmap loc (gmap string string))
    (cs : list Call) :
  i <> "" -> n <> "" -> p <> "" ->
  Forall (fun u => User.id u <> i) (items w) ->
  Forall (fun u => User.id u <> i) extra ->
  InputData.id readInput = Some i ->
  exists w1,
    runCreateUser vm (InputData.new (Some i) (Some n) (Some p)) w = (inr tt, w1)
    /\ let w2 := mkWorld (items w1 ++ extra) hp cs in
       exists w3,
         runGetUser vm readInput w2 = (inr tt, w3)
         /\ presented w3 = presented w2 ++ [OutputData.new i n].
Proof.
  intros Hi Hn Hp Hfresh Hextra Hid.
  destruct (runCreateUser_valid vm i n p w Hi Hn Hp) as (w1 & E & Hits & _).
  exists w1. split; [exact E|]. cbv zeta.
  apply (runGetUser_first_match vm readInput i (items w) extra (User.new i n p));
    try assumption; try reflexivity.
  cbn [items]. rewrite Hits, <- List.app_assoc. reflexivity.
Qed.

Lemma read_after_fresh_write_witness :
  exists w1,
    runCreateUser Main.viewModel
      (InputData.new (Some "1") (Some "alice") (Some "s3cr3t")) Main.world
    = (inr tt, w1)
    /\ exists w3,
         runGetUser Main.viewModel (InputData.new (Some "1") None None)
           (mkWorld (items w1 ++ [User.new "2" "bob" "pw"]) (heap w1) (calls w1))
         = (inr tt, w3)
         /\ presented w3
            = presented
                (mkWorld (items w1 ++ [User.new "2" "bob" "pw"]) (heap w1)
                   (calls w1))
              ++ [OutputData.new "1" "alice"].
Proof.
  destruct (read_after_fresh_write Main.viewModel "1" "alice" "s3cr3t"
              Main.world (InputData.new (Some "1") None None)
              [User.new "2" "bob" "pw"]
              (heap (snd (runCreateUser Main.viewModel
                 (InputData.new (Some "1") (Some "alice") (Some "s3cr3t"))
                 Main.world)))
              (calls (snd (runCreateUser Main.viewModel
                 (InputData.new (Some "1") (Some "alice") (Some "s3cr3t"))
                 Main.world))))
    as (w1 & E & H).
  - discriminate.
  - discriminate.
  - discriminate.
  - constructor.
  - constructor; [discriminate | constructor].
  - reflexivity.
  - exists w1. split; [exact E|]. rewrite E in H. exact H.
Defined.

(** C1, as stated, fails: with a record of the same identifier already
    stored, the write is accepted and the read delivers the older
    display name. *)
Lemma read_after_write_sees_older_record :
  ~ (forall (vm : loc) (i n p : string) (w w1 : World)
            (readInput : InputData.t),
       i <> "" -> n <> "" -> p <> "" ->
       runCreateUser vm (InputData.new (Some i) (Some n) (Some p)) w
       = (inr tt, w1) ->
       InputData.id readInput = Some i ->
       exists w3,
         runGetUser vm readInput w1 = (inr tt, w3)
         /\ presented w3 = presented w1 ++ [OutputData.new i n]).
Proof.
  intros H.
  pose (w := mkWorld [User.new "1" "alice" "s3cr3t"] (heap Main.world) []).
  assert (N : forall c s, String c s <> "") by discriminate.
  destruct (H Main.viewModel "1" "bob" "pw" w
              (snd (runCreateUser Main.viewModel
                      (InputData.new (Some "1") (Some "bob") (Some "pw")) w))
              (InputData.new (Some "1") None None)
              (N _ _) (N _ _) (N _ _) eq_refl eq_refl)
    as (w3 & E & P).
  vm_compute in E. injection E as <-.
  vm_compute in P. discriminate P.
Qed.

(** C7: [Database.create] appends and never throws; two valid writes with
    one identifier both succeed, leaving both records stored in the order
    written; and a fetch of that identifier returns the first record with
    that identifier in insertion order, which is the first of the two
    when none was stored before. *)
Theorem duplicate_writes_first_match
    (vm : loc) (i n1 p1 n2 p2 : string) (w : World) :
  i <> "" -> n1 <> "" -> p1 <> "" -> n2 <> "" -> p2 <> "" ->
  (forall item w0,
     Database.create item w0
     = (inr tt, set_items (fun its => its ++ [item]) w0))
  /\ exists w1 w2,
       runCreateUser vm (InputData.new (Some i) (Some n1) (Some p1)) w
       = (inr tt, w1)
       /\ runCreateUser vm (InputData.new (Some i) (Some n2) (Some p2)) w1
          = (inr tt, w2)
       /\ items w2 = items w ++ [User.new i n1 p1; User.new i n2 p2]
       /\ (exists pre u post,
             items w2 = pre ++ u :: post
             /\ Forall (fun v => User.id v <> i) pre
             /\ User.id u = i
             /\ Database.get i w2 = (inr u, w2))
       /\ (Forall (fun v => User.id v <> i) (items w) ->
           Database.get i w2 = (inr (User.new i n1 p1), w2)).
Proof.
  intros Hi Hn1 Hp1 Hn2 Hp2. split; [intros; apply Database_create_run|].
  destruct (runCreateUser_valid vm i n1 p1 w Hi Hn1 Hp1) as (w1 & E1 & I1 & _).
  destruct (runCreateUser_valid vm i n2 p2 w1 Hi Hn2 Hp2) as (w2 & E2 & I2 & _).
  exists w1, w2. split; [exact E1|]. split; [exact E2|].
  assert (I : items w2 = items w ++ [User.new i n1 p1; User.new i n2 p2]).
  { rewrite I2, I1, <- List.app_assoc. reflexivity. }
  split; [exact I|].
  assert (F : forall pre, Forall (fun v => User.id v <> i) pre ->
              forall u post, User.id u = i -> items w2 = pre ++ u :: post ->
              Database.get i w2 = (inr u, w2)).
  { intros pre Hpre u post Hu Hsplit.
    rewrite Database_get_run, Hsplit, (find_first_match i pre post u Hpre Hu).
    reflexivity. }
  split.
  - destruct (List.find (fun item => String.eqb (User.id item) i) (items w2))
      as [u|] eqn:Hfind.
    + destruct (find_split i (items w2) u Hfind) as (pre & post & S & Hpre & Hu).
      exists pre, u, post. repeat split; try assumption.
      exact (F pre Hpre u post Hu S).
    + exfalso. rewrite I in Hfind.
      apply List.find_none with (x := User.new i n1 p1) in Hfind.
      * cbn [User.id] in Hfind. rewrite String.eqb_refl in Hfind.
        discriminate Hfind.
      * apply List.in_or_app. right. left. reflexivity.
  - intros Hfresh. exact (F (items w) Hfresh (User.new i n1 p1)
                            [User.new i n2 p2] eq_refl I).
Qed.

Lemma duplicate_writes_first_match_witness :
  exists w1 w2,
    runCreateUser Main.viewModel
      (InputData.new (Some "1") (Some "alice") (Some "s3cr3t")) Main.world
    = (inr tt, w1)
    /\ runCreateUser Main.viewModel
         (InputData.new (Some "1") (Some "bob") (Some "pw")) w1
       = (inr tt, w2)
    /\ Database.get "1" w2 = (inr (User.new "1" "alice" "s3cr3t"), w2).
Proof.
  destruct (duplicate_writes_first_match Main.viewModel
              "1" "alice" "s3cr3t" "bob" "pw" Main.world)
    as (_ & w1 & w2 & E1 & E2 & _ & _ & F);
    try discriminate.
  exists w1, w2. split; [exact E1|]. split; [exact E2|].
  apply F. constructor.
Defined.

(** ** Confidentiality of the secret *)

Lemma find_public (i : string) (its1 its2 : list User.t) :
  List.map public its1 = List.map public its2 ->
  option_map public
    (List.find (fun item => String.eqb (User.id item) i) its1)
  = option_map public
      (List.find (fun item => String.eqb (User.id item) i) its2).
Proof.
  revert its2. induction its1 as [|u1 its1 IH]; intros [|u2 its2] E;
    try discriminate E; [reflexivity|].
  cbn [List.map] in E.
  assert (Eu : public u1 = public u2) by congruence.
  assert (Erest : List.map public its1 = List.map public its2) by congruence.
  assert (Eid : User.id u1 = User.id u2)
    by exact (f_equal OutputData.id Eu).
  cbn [List.find]. rewrite Eid.
  destruct (String.eqb (User.id u2) i);
    [cbn [option_map]; rewrite Eu; reflexivity | apply IH, Erest].
Qed.

Lemma sameButSecrets_delivered vm o w1 w2 :
  sameButSecrets w1 w2 ->
  sameButSecrets (delivered vm o w1) (delivered vm o w2).
Proof.
  intros (I & H & P). unfold sameButSecrets.
  rewrite !items_delivered, !heap_delivered, !presented_delivered, H, P.
  repeat split. exact I.
Qed.

Lemma sameButSecrets_gateway_call c1 c2 w1 w2 :
  isGateway c1 = true -> isGateway c2 = true ->
  sameButSecrets w1 w2 ->
  sameButSecrets (set_calls (fun cs => cs ++ [c1]) w1)
                 (set_calls (fun cs => cs ++ [c2]) w2).
Proof.
  intros G1 G2 (I & H & P). unfold sameButSecrets.
  rewrite !presented_gateway_call by assumption. repeat split; assumption.
Qed.

Lemma sameButSecrets_stored (u1 u2 : User.t) (w1 w2 : World) :
  public u1 = public u2 ->
  sameButSecrets w1 w2 ->
  sameButSecrets
    (set_items (fun its => its ++ [u1])
       (set_calls (fun cs => cs ++ [CallCreateUser u1]) w1))
    (set_items (fun its => its ++ [u2])
       (set_calls (fun cs => cs ++ [CallCreateUser u2]) w2)).
Proof.
  intros Ep S.
  destruct (sameButSecrets_gateway_call (CallCreateUser u1) (CallCreateUser u2)
              w1 w2 eq_refl eq_refl S) as (I & H & P).
  unfold sameButSecrets. rewrite !presented_set_items.
  repeat split; try assumption.
  cbn [items set_items set_calls]. rewrite !List.map_app, (proj1 S).
  cbn [List.map]. rewrite Ep. reflexivity.
Qed.

(** C4: the data handed to [present] is an object of exactly the two
    fields [id] and [username] (the type [OutputData.t]), and it does not
    depend on any secret.  Take two worlds that differ only in stored
    secrets.  A read of one identifier has the same outcome in both and
    hands the same data to [present] and to the view model.  Two
    successful writes that differ only in the supplied secret hand the
    same data, the supplied identifier and display name, to [present], and
    leave worlds that again differ only in secrets. *)
Theorem secret_never_presented (vm : loc) (w1 w2 : World) :
  sameButSecrets w1 w2 ->
  (forall in1 in2 : InputData.t,
     InputData.id in1 = InputData.id in2 ->
     let r1 := runGetUser vm in1 w1 in
     let r2 := runGetUser vm in2 w2 in
     fst r1 = fst r2
     /\ presented (snd r1) = presented (snd r2)
     /\ heap (snd r1) = heap (snd r2)
     /\ sameButSecrets (snd r1) (snd r2))
  /\ (forall in1 in2 : InputData.t,
        InputData.id in1 = InputData.id in2 ->
        InputData.username in1 = InputData.username in2 ->
        let c1 := runCreateUser vm in1 w1 in
        let c2 := runCreateUser vm in2 w2 in
        succeeds c1 = true -> succeeds c2 = true ->
        presented (snd c1) = presented (snd c2)
        /\ presented (snd c1)
           = presented w1
             ++ [OutputData.new (str (InputData.id in1))
                                (str (InputData.username in1))]
        /\ heap (snd c1) = heap (snd c2)
        /\ sameButSecrets (snd c1) (snd c2)).
Proof.
  intros S. split.
  - intros in1 in2 Eid. cbv zeta.
    assert (G : fst (runGetUser vm in1 w1) = fst (runGetUser vm in2 w2)
                /\ sameButSecrets (snd (runGetUser vm in1 w1))
                                  (snd (runGetUser vm in2 w2))).
    { rewrite !runGetUser_eq, <- Eid.
      destruct (falsy (InputData.id in1)); [split; [reflexivity|exact S]|].
      cbv zeta.
      pose proof (find_public (str (InputData.id in1)) (items w1) (items w2)
                    (proj1 S)) as F.
      destruct (List.find _ (items w1)) as [u1|];
        destruct (List.find _ (items w2)) as [u2|];
        try discriminate F; cbn [fst snd].
      - assert (Fp : public u1 = public u2)
          by (cbn [option_map] in F; congruence).
        rewrite Fp. split; [reflexivity|].
        apply sameButSecrets_delivered, sameButSecrets_gateway_call;
          [reflexivity | reflexivity | exact S].
      - split; [reflexivity|].
        apply sameButSecrets_gateway_call; [reflexivity | reflexivity | exact S].
    }
    destruct G as (G1 & I & H & P). repeat split; assumption.
  - intros in1 in2 Eid Eun. cbv zeta. unfold succeeds.
    rewrite !runCreateUser_eq.
    destruct (firstMissing in1); [discriminate|].
    destruct (firstMissing in2); [discriminate|].
    intros _ _. cbv zeta. cbn [fst snd].
    set (u1 := User.new (str (InputData.id in1)) (str (InputData.username in1))
                 (str (InputData.password in1))).
    set (u2 := User.new (str (InputData.id in2)) (str (InputData.username in2))
                 (str (InputData.password in2))).
    assert (Ep : public u1 = public u2).
    { unfold public, u1, u2; cbn [User.id User.username].
      rewrite Eid, Eun. reflexivity. }
    destruct (sameButSecrets_delivered vm (public u2) _ _
                (sameButSecrets_stored u1 u2 w1 w2 Ep S)) as (I & H & P).
    rewrite Ep. repeat split; try assumption.
    rewrite presented_delivered, presented_set_items, presented_gateway_call
      by reflexivity.
    rewrite <- Ep. reflexivity.
Qed.

Lemma secret_never_presented_witness :
  let wa := mkWorld [User.new "1" "alice" "s3cr3t"] (heap Main.world) [] in
  let wb := mkWorld [User.new "1" "alice" "hunter2"] (heap Main.world) [] in
  let read := InputData.new (Some "1") None None in
  sameButSecrets wa wb
  /\ presented (snd (runGetUser Main.viewModel read wa))
     = presented (snd (runGetUser Main.viewModel read wb)).
Proof.
  cbv zeta.
  assert (S : sameButSecrets
                (mkWorld [User.new "1" "alice" "s3cr3t"] (heap Main.world) [])
                (mkWorld [User.new "1" "alice" "hunter2"] (heap Main.world) []))
    by (repeat split).
  split; [exact S|].
  apply (proj1 (secret_never_presented Main.viewModel _ _ S)
           (InputData.new (Some "1") None None)
           (InputData.new (Some "1") None None) eq_refl).
Defined.

(** ** The view model *)

Lemma assign_assign (o1 o2 : OutputData.t) (x : gmap string string) :
  assign o2 (assign o1 x) = assign o2 x.
Proof.
  unfold assign. apply map_eq. intros k.
  rewrite !lookup_insert. repeat case_decide; congruence.
Qed.

Lemma assign_lookup (o : OutputData.t) (x : gmap string string) :
  assign o x !! "id" = Some (OutputData.id o)
  /\ assign o x !! "username" = Some (OutputData.username o)
  /\ (forall k : string, k <> "id" -> k <> "username" -> assign o x !! k = x !! k).
Proof.
  unfold assign. repeat split.
  - rewrite lookup_insert_ne by discriminate. apply lookup_insert_eq.
  - apply lookup_insert_eq.
  - intros k K1 K2. rewrite !lookup_insert_ne by congruence. reflexivity.
Qed.

(** A successful use-case call delivers one result. *)
Lemma perform_success (vm : loc) (op : Op) (w w' : World) :
  perform vm op w = (inr tt, w') ->
  exists o,
    presented w' = presented w ++ [o]
    /\ heap w' = alter (assign o) vm (heap w).
Proof.
  destruct op as [inputData|inputData]; unfold perform.
  - rewrite runGetUser_eq.
    destruct (falsy (InputData.id inputData)); [discriminate|]. cbv zeta.
    destruct (List.find _ (items w)) as [user|]; [|discriminate].
    intros [= <-]. exists (public user).
    rewrite presented_delivered, heap_delivered, presented_gateway_call
      by reflexivity.
    split; reflexivity.
  - rewrite runCreateUser_eq.
    destruct (firstMissing inputData); [discriminate|]. cbv zeta.
    intros [= <-]. eexists.
    rewrite presented_delivered, heap_delivered, presented_set_items,
      presented_gateway_call by reflexivity.
    split; reflexivity.
Qed.

Lemma performAll_success (vm : loc) (ops : list Op) :
  forall w w' : World,
    performAll vm ops w = (inr tt, w') ->
    exists outs,
      length outs = length ops
      /\ presented w' = presented w ++ outs
      /\ heap w' = List.fold_left (fun h o => alter (assign o) vm h) outs (heap w).
Proof.
  induction ops as [|op ops IH]; intros w w' E.
  - injection E as <-. exists []. rewrite List.app_nil_r. repeat split.
  - cbn [performAll] in E. unfold bind in E.
    destruct (perform vm op w) as [[e|[]] w1] eqn:E1; [discriminate E|].
    destruct (perform_success vm op w w1 E1) as (o & P1 & H1).
    destruct (IH w1 w' E) as (outs & L & P & H).
    exists (o :: outs). cbn [length List.fold_left].
    rewrite L, P, P1, H, H1, <- List.app_assoc. repeat split.
Qed.

Lemma fold_alter_lookup (vm : loc) (outs : list OutputData.t) :
  forall (h : gmap loc (gmap string string)) (x : gmap string string),
    h !! vm = Some x ->
    List.fold_left (fun h o => alter (assign o) vm h) outs h !! vm
    = Some (List.fold_left (fun x o => assign o x) outs x)
    /\ forall l, l <> vm ->
         List.fold_left (fun h o => alter (assign o) vm h) outs h !! l = h !! l.
Proof.
  induction outs as [|o outs IH]; intros h x Hx; cbn [List.fold_left].
  - split; [exact Hx | reflexivity].
  - destruct (IH (alter (assign o) vm h) (assign o x)) as (A & B).
    + rewrite lookup_alter_eq, Hx. reflexivity.
    + split; [exact A|]. intros l Hl. rewrite (B l Hl).
      apply lookup_alter_ne. congruence.
Qed.

Lemma fold_assign_last (outs : list OutputData.t) (o : OutputData.t)
    (x : gmap string string) :
  List.fold_left (fun x o => assign o x) (outs ++ [o]) x = assign o x.
Proof.
  rewrite List.fold_left_app. cbn [List.fold_left].
  revert x. induction outs as [|o1 outs IH]; intros x; cbn [List.fold_left].
  - reflexivity.
  - rewrite IH. apply assign_assign.
Qed.

(** C10: [present] updates the object its presenter was built with, in
    place, by the two assignments to [id] and [username], and touches
    nothing else in the world.  So after a script of one or more use-case
    calls that all succeeded, the view model that main.ts holds has, for
    [id] and [username], the values of the result presented last, every
    other property it had at the start, and nothing more; started from
    [{}] it is exactly that result.  Other objects are untouched. *)
Theorem viewModel_last_write_wins
    (vm : loc) (ops : list Op) (w w' : World) (x : gmap string string) :
  heap w !! vm = Some x ->
  ops <> [] ->
  performAll vm ops w = (inr tt, w') ->
  (forall o w0,
     Presenter.present vm o w0 = (inr tt, set_heap (alter (assign o) vm) w0))
  /\ exists o,
       last (presented w') = Some o
       /\ length (presented w') = length (presented w) + length ops
       /\ heap w' !! vm
          = Some (<["username" := OutputData.username o]>
                    (<["id" := OutputData.id o]> x))
       /\ (x = ∅ ->
           heap w' !! vm
           = Some (<["username" := OutputData.username o]>
                     {["id" := OutputData.id o]}))
       /\ (forall k : string, k <> "id" -> k <> "username" ->
             (heap w' !! vm) ≫= (fun y => y !! k) = x !! k)
       /\ (forall l, l <> vm -> heap w' !! l = heap w !! l).
Proof.
  intros Hx Hops E. split; [intros; apply present_run|].
  destruct (performAll_success vm ops w w' E) as (outs & L & P & H).
  destruct outs as [|o outs _] using List.rev_ind.
  { destruct ops; [congruence | discriminate L]. }
  exists o.
  destruct (fold_alter_lookup vm (outs ++ [o]) (heap w) x Hx) as (A & B).
  rewrite fold_assign_last in A. rewrite <- H in A, B.
  split; [rewrite P, List.app_assoc; apply last_snoc|].
  split; [rewrite P, List.length_app, L; reflexivity|].
  split; [exact A|].
  split; [intros ->; exact A|].
  split; [|exact B].
  intros k K1 K2. rewrite A. cbn [mbind option_bind].
  apply (assign_lookup o x); assumption.
Qed.

Lemma viewModel_last_write_wins_witness :
  let script :=
    [Store (InputData.new (Some "1") (Some "alice") (Some "s3cr3t"));
     Store (InputData.new (Some "2") (Some "bob") (Some "pw"));
     Read (InputData.new (Some "1") None None)] in
  let w' := snd (performAll Main.viewModel script Main.world) in
  heap Main.world !! Main.viewModel = Some ∅
  /\ performAll Main.viewModel script Main.world = (inr tt, w')
  /\ exists o,
       last (presented w') = Some o
       /\ heap w' !! Main.viewModel
          = Some (<["username" := OutputData.username o]>
                    {["id" := OutputData.id o]}).
Proof.
  cbv zeta.
  assert (Hx : heap Main.world !! Main.viewModel = Some ∅) by reflexivity.
  assert (E : performAll Main.viewModel
                [Store (InputData.new (Some "1") (Some "alice") (Some "s3cr3t"));
                 Store (InputData.new (Some "2") (Some "bob") (Some "pw"));
                 Read (InputData.new (Some "1") None None)] Main.world
              = (inr tt,
                 snd (performAll Main.viewModel
                   [Store (InputData.new (Some "1") (Some "alice") (Some "s3cr3t"));
                    Store (InputData.new (Some "2") (Some "bob") (Some "pw"));
                    Read (InputData.new (Some "1") None None)] Main.world)))
    by (vm_compute; reflexivity).
  split; [exact Hx|]. split; [exact E|].
  destruct (fun N => viewModel_last_write_wins Main.viewModel _ _ _ ∅ Hx N E)
    as (_ & o & L & _ & _ & A & _); [discriminate|].
  exists o. split; [exact L | exact (A eq_refl)].
Defined.

(** * Further properties of the code *)

(** ** The database *)

Lemma find_append (i : string) (its its' : list User.t) :
  List.find (fun item => String.eqb (User.id item) i) (its ++ its') =
  match List.find (fun item => String.eqb (User.id item) i) its with
  | Some u => Some u
  | None => List.find (fun item => String.eqb (User.id item) i) its'
  end.
Proof.
  induction its as [|v its IH]; cbn [List.app List.find]; [reflexivity|].
  destruct (String.eqb (User.id v) i); [reflexivity | exact IH].
Qed.

(** X1: [Database.get] is a sound and complete lookup.  It succeeds exactly
    when some stored item has the requested id; what it returns is a
    stored item with that id, the earliest such one; a failure is the
    error "Item not found"; and in no case does the call change the
    world. *)
Theorem Database_get_sound_complete (i : string) (w : World) :
  (succeeds (Database.get i w) = true
   <-> exists u, In u (items w) /\ User.id u = i)
  /\ (forall u w',
        Database.get i w = (inr u, w') ->
        User.id u = i
        /\ exists pre post,
             items w = pre ++ u :: post
             /\ Forall (fun v => User.id v <> i) pre)
  /\ (succeeds (Database.get i w) = false ->
      thrown (Database.get i w) = Some (Error "Item not found"))
  /\ snd (Database.get i w) = w.
Proof.
  rewrite Database_get_run.
  destruct (List.find (fun item => String.eqb (User.id item) i) (items w))
    as [u|] eqn:F.
  - destruct (find_split i (items w) u F) as (pre & post & S & Hpre & Hu).
    repeat split.
    + intros _. exists u. split; [|exact Hu].
      rewrite S. apply List.in_or_app. right. left. reflexivity.
    + injection H as <- _. exact Hu.
    + injection H as <- _. exists pre, post. split; assumption.
    + discriminate.
  - repeat split; try discriminate.
    intros (u & Hin & Hu). exfalso.
    apply (List.find_none _ _ F) in Hin. cbn beta in Hin.
    rewrite Hu, String.eqb_refl in Hin. discriminate Hin.
Qed.

(** X2: how a fetch sees an insert.  After [create v], a fetch of [i]
    returns what it returned before when it succeeded before (an insert
    never shadows an older item); otherwise it returns [v] when [v] has the
    id [i], and still fails when it has not. *)
Theorem Database_get_after_create (i : string) (v : User.t) (w : World) :
  fst (Database.get i (snd (Database.create v w))) =
  match fst (Database.get i w) with
  | inr u => inr u
  | inl e => if String.eqb (User.id v) i then inr v else inl e
  end.
Proof.
  rewrite Database_create_run, !Database_get_run. cbn [snd set_items items].
  rewrite find_append. cbn [List.find].
  destruct (List.find _ (items w)); [reflexivity|].
  destruct (String.eqb (User.id v) i); reflexivity.
Qed.

(** ** The write use case on the wiring of main.ts *)

(** X3: [executeCreateUser] succeeds exactly when [id], [password] and
    [username] are all non-empty strings.  When it throws, the world is as
    before.  When it succeeds, the one item appended is the user made of
    the three supplied strings, each in its own field; if no item had that
    id, the repository reads the whole user back, password included. *)
Theorem executeCreateUser_stores_request
    (vm : loc) (inputData : InputData.t) (w : World) :
  let run := InteractorInterface.executeCreateUser (wired vm) inputData w in
  succeeds run
  = negb (falsy (InputData.id inputData))
    && negb (falsy (InputData.password inputData))
    && negb (falsy (InputData.username inputData))
  /\ (succeeds run = false -> snd run = w)
  /\ (succeeds run = true ->
      exists i n p,
        InputData.id inputData = Some i
        /\ InputData.username inputData = Some n
        /\ InputData.password inputData = Some p
        /\ items (snd run) = items w ++ [User.new i n p]
        /\ (Forall (fun u => User.id u <> i) (items w) ->
            Repository.getUser Database.new i (snd run)
            = (inr (User.new i n p), snd run))).
Proof.
  cbv zeta. rewrite wired_createUser_run. unfold firstMissing, succeeds.
  destruct (InputData.id inputData) as [i|] eqn:Ei;
    [|split; [reflexivity | split; [reflexivity | discriminate]]].
  destruct (falsy (Some i)) eqn:Fi;
    [split; [reflexivity | split; [reflexivity | discriminate]]|].
  destruct (InputData.password inputData) as [p|] eqn:Ep;
    [|split; [reflexivity | split; [reflexivity | discriminate]]].
  destruct (falsy (Some p)) eqn:Fp;
    [split; [reflexivity | split; [reflexivity | discriminate]]|].
  destruct (InputData.username inputData) as [n|] eqn:En;
    [|split; [reflexivity | split; [reflexivity | discriminate]]].
  destruct (falsy (Some n)) eqn:Fn;
    [split; [reflexivity | split; [reflexivity | discriminate]]|].
  cbv zeta. cbn [fst snd]. split; [reflexivity|]. split; [discriminate|].
  intros _. exists i, n, p. repeat split.
  intros Hfresh. unfold Repository.getUser, Database.new, DatabaseInterface.get.
  rewrite Database_get_run. cbn [items set_heap set_items].
  change (str (Some i)) with i. change (str (Some n)) with n.
  change (str (Some p)) with p.
  rewrite (find_first_match i (items w) [] (User.new i n p) Hfresh eq_refl).
  reflexivity.
Qed.

(** ** The controller on the wiring of main.ts *)

Lemma Controller_getUser_run (vm : loc) (id : string) (w : World) :
  Controller.getUser (wired vm) id w =
  if String.eqb id "" then (inl (Error "id is required"), w)
  else
    match List.find (fun item => String.eqb (User.id item) id) (items w) with
    | None => (inl (Error "Item not found"), w)
    | Some user => (inr tt, set_heap (alter (assign (public user)) vm) w)
    end.
Proof.
  unfold Controller.getUser. rewrite wired_getUser_run. reflexivity.
Qed.

(** X4: [Controller.getUser], through interactor, repository, database and
    presenter.  The call succeeds exactly when the id is not empty and
    some stored user has it.  A call that throws leaves the world as it
    was: "id is required" for the empty id, "Item not found" otherwise.
    A call that succeeds changes nothing but the view model, which
    receives the id and username of the earliest stored user with that
    id. *)
Theorem Controller_getUser_outcome (vm : loc) (id : string) (w : World) :
  let run := Controller.getUser (wired vm) id w in
  (succeeds run = true
   <-> id <> "" /\ exists u, In u (items w) /\ User.id u = id)
  /\ (succeeds run = false ->
      run = (inl (Error (if String.eqb id "" then "id is required"
                         else "Item not found")), w))
  /\ (succeeds run = true ->
      exists pre u post,
        items w = pre ++ u :: post
        /\ Forall (fun v => User.id v <> id) pre
        /\ User.id u = id
        /\ snd run
           = set_heap
               (alter (fun o => <["username" := User.username u]>
                                  (<["id" := User.id u]> o)) vm) w).
Proof.
  cbv zeta. rewrite Controller_getUser_run. unfold succeeds.
  destruct (String.eqb id "") eqn:Eid.
  - apply String.eqb_eq in Eid. split; [|split; [reflexivity|discriminate]].
    split; [discriminate | intros [N _]; contradiction].
  - apply String.eqb_neq in Eid.
    destruct (List.find (fun item => String.eqb (User.id item) id) (items w))
      as [u|] eqn:F; cbn [fst snd].
    + destruct (find_split id (items w) u F) as (pre & post & S & Hpre & Hu).
      split; [|split; [discriminate|]].
      * split; [|reflexivity]. intros _. split; [exact Eid|].
        exists u. split; [|exact Hu].
        rewrite S. apply List.in_or_app. right. left. reflexivity.
      * intros _. exists pre, u, post. repeat split; assumption.
    + split; [|split; [reflexivity|discriminate]].
      split; [discriminate|]. intros (_ & u & Hin & Hu). exfalso.
      apply (List.find_none _ _ F) in Hin. cbn beta in Hin.
      rewrite Hu, String.eqb_refl in Hin. discriminate Hin.
Qed.

Lemma handle_items (vm : loc) (r : Request) (w : World) :
  items (snd (handle (wired vm) r w)) = items w.
Proof.
  destruct r as [id|id username]; unfold handle.
  - rewrite Controller_getUser_run.
    destruct (String.eqb id ""); [reflexivity|].
    destruct (List.find _ (items w)); reflexivity.
  - unfold Controller.createUser. rewrite wired_createUser_run.
    unfold firstMissing. cbn [InputData.id InputData.password falsy].
    destruct (String.eqb id ""); reflexivity.
Qed.

(** X5: nothing is ever stored through the controller.  Whatever calls a
    caller makes, [getUser] or [createUser], in whatever number, and
    whether or not it carries on after a throw, the items of the database
    stay what they were; and on an empty database, as main.ts starts
    with, every call throws and leaves the whole world untouched. *)
Theorem Controller_never_stores (vm : loc) (rs : list Request) (w : World) :
  items (serve (wired vm) rs w) = items w
  /\ (items w = [] ->
      serve (wired vm) rs w = w
      /\ forall r, exists e, handle (wired vm) r w = (inl e, w)).
Proof.
  assert (I : forall rs w, items (serve (wired vm) rs w) = items w).
  { clear. induction rs as [|r rs IH]; intros w; [reflexivity|].
    unfold serve in *. cbn [List.fold_left]. rewrite IH. apply handle_items. }
  assert (T : forall r w, items w = [] ->
                exists e, handle (wired vm) r w = (inl e, w)).
  { clear. intros [id|id username] w E; unfold handle.
    - rewrite Controller_getUser_run, E. cbn [List.find].
      destruct (String.eqb id ""); eexists; reflexivity.
    - unfold Controller.createUser. rewrite wired_createUser_run.
      unfold firstMissing. cbn [InputData.id InputData.password falsy].
      destruct (String.eqb id ""); eexists; reflexivity. }
  split; [apply I|]. intros E. split; [|intros r; apply T, E].
  revert w E. induction rs as [|r rs IH]; intros w E; [reflexivity|].
  unfold serve in *. cbn [List.fold_left].
  destruct (T r w E) as (e & ->). cbn [snd]. apply IH, E.
Qed.

Lemma Controller_never_stores_witness :
  items Main.world = []
  /\ serve Main.interactor
       [CreateUser "1" "alice"; GetUser "1"; GetUser ""] Main.world
     = Main.world.
Proof.
  split; [reflexivity|].
  apply (Controller_never_stores Main.viewModel
           [CreateUser "1" "alice"; GetUser "1"; GetUser ""] Main.world).
  reflexivity.
Defined.

(** ** The interactor and its collaborators *)

(** X6: a write is not rolled back.  With the database of main.ts and any
    presenter that leaves the database alone, a valid write first appends
    the user and then calls [present] in the world that already holds it;
    so when [present] throws, the call throws that error and the user
    stays stored, where a fetch finds it. *)
Theorem executeCreateUser_not_rolled_back
    (pres : PresenterInterface.t) (i n p : string) (e : exn) (w : World) :
  i <> "" -> n <> "" -> p <> "" ->
  keepsItems pres ->
  let stored := set_items (fun its => its ++ [User.new i n p]) w in
  fst (PresenterInterface.present pres (OutputData.new i n) stored) = inl e ->
  let run :=
    InteractorInterface.executeCreateUser
      (Interactor.new (Repository.new Database.new) pres)
      (InputData.new (Some i) (Some n) (Some p)) w in
  run = PresenterInterface.present pres (OutputData.new i n) stored
  /\ fst run = inl e
  /\ items (snd run) = items w ++ [User.new i n p]
  /\ succeeds (Database.get i (snd run)) = true.
Proof.
  intros Hi Hn Hp K. cbv zeta. intros E.
  assert (R : InteractorInterface.executeCreateUser
                (Interactor.new (Repository.new Database.new) pres)
                (InputData.new (Some i) (Some n) (Some p)) w
              = PresenterInterface.present pres (OutputData.new i n)
                  (set_items (fun its => its ++ [User.new i n p]) w)).
  { unfold Interactor.new, InteractorInterface.executeCreateUser,
      Interactor.executeCreateUser.
    cbn [InputData.id InputData.username InputData.password].
    rewrite (falsy_Some_false i Hi), (falsy_Some_false p Hp),
      (falsy_Some_false n Hn).
    unfold bind at 1. reflexivity. }
  rewrite R.
  assert (I : items (snd (PresenterInterface.present pres (OutputData.new i n)
                            (set_items (fun its => its ++ [User.new i n p]) w)))
              = items w ++ [User.new i n p]) by (rewrite K; reflexivity).
  split; [reflexivity|]. split; [exact E|]. split; [exact I|].
  rewrite Database_get_run, I, find_append. unfold succeeds.
  destruct (List.find _ (items w)); [reflexivity|].
  cbn [List.find User.id]. rewrite String.eqb_refl. reflexivity.
Qed.

Lemma Stub_presenter_keepsItems : keepsItems Stub.presenter.
Proof. intros o w. reflexivity. Qed.

Lemma executeCreateUser_not_rolled_back_witness :
  let run :=
    InteractorInterface.executeCreateUser
      (Interactor.new (Repository.new Database.new) Stub.presenter)
      (InputData.new (Some "1") (Some "alice") (Some "s3cr3t")) Main.world in
  fst run = inl (Error "View unavailable")
  /\ items (snd run) = items Main.world ++ [User.new "1" "alice" "s3cr3t"]
  /\ succeeds (Database.get "1" (snd run)) = true.
Proof.
  cbv zeta.
  apply (executeCreateUser_not_rolled_back Stub.presenter
           "1" "alice" "s3cr3t" (Error "View unavailable") Main.world).
  - discriminate.
  - discriminate.
  - discriminate.
  - exact Stub_presenter_keepsItems.
  - reflexivity.
Defined.

(** X7: the read use case catches nothing.  For any repository and any
    presenter, when the id is present and the repository's [getUser]
    throws, [executeGetUser] throws the same error in the world the
    repository left: the presenter does not run. *)
Theorem executeGetUser_propagates
    (repo : RepositoryInterface.t) (pres : PresenterInterface.t)
    (inputData : InputData.t) (e : exn) (w w1 : World) :
  falsy (InputData.id inputData) = false ->
  RepositoryInterface.getUser repo (str (InputData.id inputData)) w
  = (inl e, w1) ->
  let run :=
    InteractorInterface.executeGetUser
      (Interactor.new repo (Spy.presenter pres)) inputData w in
  run = (inl e, w1) /\ presentCalls (snd run) = presentCalls w1.
Proof.
  intros F E. cbv zeta.
  assert (R : InteractorInterface.executeGetUser
                (Interactor.new repo (Spy.presenter pres)) inputData w
              = (inl e, w1)).
  { unfold Interactor.new, InteractorInterface.executeGetUser,
      Interactor.executeGetUser.
    rewrite F. unfold bind at 1. rewrite E. reflexivity. }
  rewrite R. split; reflexivity.
Qed.

Lemma executeGetUser_propagates_witness :
  InteractorInterface.executeGetUser
    (Interactor.new Stub.repository (Spy.presenter Main.presenter))
    (InputData.new (Some "1") None None) Main.world
  = (inl (Error "Connection lost"), Main.world).
Proof.
  apply (executeGetUser_propagates Stub.repository Main.presenter
           (InputData.new (Some "1") None None) (Error "Connection lost")
           Main.world Main.world);
    reflexivity.
Defined.

(** X8: nor does the write use case.  For any repository and any
    presenter, when the three fields are present and the repository's
    [createUser] throws, [executeCreateUser] throws the same error in the
    world the repository left: nothing is presented for a user that was
    not stored. *)
Theorem executeCreateUser_propagates
    (repo : RepositoryInterface.t) (pres : PresenterInterface.t)
    (inputData : InputData.t) (e : exn) (w w1 : World) :
  firstMissing inputData = None ->
  RepositoryInterface.createUser repo
    (User.new (str (InputData.id inputData))
              (str (InputData.username inputData))
              (str (InputData.password inputData))) w
  = (inl e, w1) ->
  let run :=
    InteractorInterface.executeCreateUser
      (Interactor.new repo (Spy.presenter pres)) inputData w in
  run = (inl e, w1) /\ presentCalls (snd run) = presentCalls w1.
Proof.
  intros F E. cbv zeta.
  assert (R : InteractorInterface.executeCreateUser
                (Interactor.new repo (Spy.presenter pres)) inputData w
              = (inl e, w1)).
  { unfold Interactor.new, InteractorInterface.executeCreateUser,
      Interactor.executeCreateUser.
    unfold firstMissing in F.
    destruct (falsy (InputData.id inputData)); [discriminate F|].
    destruct (falsy (InputData.password inputData)); [discriminate F|].
    destruct (falsy (InputData.username inputData)); [discriminate F|].
    unfold bind at 1. rewrite E. reflexivity. }
  rewrite R. split; reflexivity.
Qed.

Lemma executeCreateUser_propagates_witness :
  InteractorInterface.executeCreateUser
    (Interactor.new Stub.repository (Spy.presenter Main.presenter))
    (InputData.new (Some "1") (Some "alice") (Some "s3cr3t")) Main.world
  = (inl (Error "Duplicate id"), Main.world).
Proof.
  apply (executeCreateUser_propagates Stub.repository Main.presenter
           (InputData.new (Some "1") (Some "alice") (Some "s3cr3t"))
           (Error "Duplicate id") Main.world Main.world);
    reflexivity.
Defined.

(** ** Storage over time *)

Lemma runGetUser_items
    (vm : loc) (inputData : InputData.t) (w : World) :
  items (snd (runGetUser vm inputData w)) = items w.
Proof.
  rewrite runGetUser_eq.
  destruct (falsy (InputData.id inputData)); [reflexivity|]. cbv zeta.
  destruct (List.find _ (items w)); [|reflexivity].
  cbn [snd]. rewrite items_delivered. reflexivity.
Qed.

Lemma perform_items (vm : loc) (op : Op) (w : World) :
  exists added,
    items (snd (perform vm op w)) = items w ++ added
    /\ length added <= 1.
Proof.
  destruct op as [inputData|inputData]; unfold perform.
  - exists []. rewrite List.app_nil_r.
    split; [apply (runGetUser_items vm inputData w)
           | cbn; lia].
  - rewrite runCreateUser_eq.
    destruct (firstMissing inputData).
    + exists []. rewrite List.app_nil_r. split; [reflexivity | cbn; lia].
    + cbv zeta. cbn [snd]. rewrite items_delivered. eexists.
      split; [reflexivity | cbn; lia].
Qed.

Lemma performAll_items (vm : loc) (ops : list Op) :
  forall w : World,
    exists added,
      items (snd (performAll vm ops w)) = items w ++ added
      /\ length added <= length ops.
Proof.
  induction ops as [|op ops IH]; intros w.
  - exists []. rewrite List.app_nil_r. split; [reflexivity | cbn; lia].
  - cbn [performAll]. unfold bind.
    destruct (perform_items vm op w) as (a1 & I1 & L1).
    destruct (perform vm op w) as [[e|[]] w1]; cbn [snd] in I1 |- *.
    + exists a1. split; [exact I1 | cbn [length]; lia].
    + destruct (IH w1) as (a2 & I2 & L2).
      exists (a1 ++ a2). rewrite I2, I1, <- List.app_assoc, List.length_app.
      split; [reflexivity | cbn [length]; lia].
Qed.

(** X9: storage is append-only, and reads are stable.  Whatever script of
    use-case calls runs, to its end or to its first throw, the items
    before it are a prefix of the items after it, at most one more item
    per call; so an id that a fetch resolved before the script is resolved
    to the same user after it. *)
Theorem storage_append_only (vm : loc) (ops : list Op) (w : World) :
  let w' := snd (performAll vm ops w) in
  (exists added,
     items w' = items w ++ added /\ length added <= length ops)
  /\ (forall i u,
        Database.get i w = (inr u, w) -> Database.get i w' = (inr u, w')).
Proof.
  cbv zeta. destruct (performAll_items vm ops w) as (added & I & L).
  split; [exists added; split; assumption|].
  intros i u. rewrite !Database_get_run, I, find_append.
  destruct (List.find _ (items w)) as [u0|]; [|discriminate].
  intros [= ->]. reflexivity.
Qed.

(** X10: a later write never shadows an earlier one.  After a valid write
    of an identifier that was not stored before, a read of it succeeds and
    delivers the identifier and username of that write, whatever script of
    use-case calls ran in between, writes of the same identifier
    included. *)
Theorem read_after_write_any_script
    (vm : loc) (i n p : string) (ops : list Op) (w : World)
    (readInput : InputData.t) :
  i <> "" -> n <> "" -> p <> "" ->
  Forall (fun u => User.id u <> i) (items w) ->
  InputData.id readInput = Some i ->
  let w1 :=
    snd (runCreateUser vm (InputData.new (Some i) (Some n) (Some p)) w) in
  let w2 := snd (performAll vm ops w1) in
  exists w3,
    runGetUser vm readInput w2 = (inr tt, w3)
    /\ presented w3 = presented w2 ++ [OutputData.new i n].
Proof.
  intros Hi Hn Hp Hfresh Hid. cbv zeta.
  destruct (runCreateUser_valid vm i n p w Hi Hn Hp) as (w1 & E & I1 & _).
  rewrite E. cbn [snd].
  destruct (performAll_items vm ops w1) as (added & I2 & _).
  apply (runGetUser_first_match vm readInput i (items w) added
           (User.new i n p)); try assumption; try reflexivity.
  rewrite I2, I1, <- List.app_assoc. reflexivity.
Qed.

Lemma read_after_write_any_script_witness :
  let w1 :=
    snd (runCreateUser Main.viewModel
           (InputData.new (Some "1") (Some "alice") (Some "s3cr3t"))
           Main.world) in
  let w2 :=
    snd (performAll Main.viewModel
           [Store (InputData.new (Some "1") (Some "bob") (Some "pw"));
            Read (InputData.new (Some "2") None None)] w1) in
  exists w3,
    runGetUser Main.viewModel (InputData.new (Some "1") None None) w2
    = (inr tt, w3)
    /\ presented w3 = presented w2 ++ [OutputData.new "1" "alice"].
Proof.
  apply (read_after_write_any_script Main.viewModel "1" "alice" "s3cr3t"
           [Store (InputData.new (Some "1") (Some "bob") (Some "pw"));
            Read (InputData.new (Some "2") None None)]
           Main.world (InputData.new (Some "1") None None)).
  - discriminate.
  - discriminate.
  - discriminate.
  - constructor.
  - reflexivity.
Defined.

(** ** The further properties at concrete inputs *)

Lemma Database_get_sound_complete_witness :
  let w := mkWorld [User.new "1" "alice" "s3cr3t"; User.new "1" "bob" "pw"]
             (heap Main.world) [] in
  Database.get "1" w = (inr (User.new "1" "alice" "s3cr3t"), w)
  /\ User.id (User.new "1" "alice" "s3cr3t") = "1".
Proof.
  cbv zeta. split; [reflexivity|].
  apply (proj1 (proj2 (Database_get_sound_complete "1"
           (mkWorld [User.new "1" "alice" "s3cr3t"; User.new "1" "bob" "pw"]
              (heap Main.world) [])))
           (User.new "1" "alice" "s3cr3t")
           (mkWorld [User.new "1" "alice" "s3cr3t"; User.new "1" "bob" "pw"]
              (heap Main.world) [])
           eq_refl).
Defined.

Lemma executeCreateUser_stores_request_witness :
  let run :=
    InteractorInterface.executeCreateUser Main.interactor
      (InputData.new (Some "1") (Some "alice") (Some "s3cr3t")) Main.world in
  succeeds run = true
  /\ exists i n p,
       items (snd run) = items Main.world ++ [User.new i n p]
       /\ Repository.getUser Database.new i (snd run)
          = (inr (User.new i n p), snd run).
Proof.
  cbv zeta. split; [reflexivity|].
  destruct (proj2 (proj2 (executeCreateUser_stores_request Main.viewModel
              (InputData.new (Some "1") (Some "alice") (Some "s3cr3t"))
              Main.world)) eq_refl)
    as (i & n & p & Ei & _ & _ & I & G).
  exists i, n, p. split; [exact I|].
  apply G. constructor.
Defined.

Lemma Controller_getUser_outcome_witness :
  let w := mkWorld [User.new "1" "alice" "s3cr3t"] (heap Main.world) [] in
  succeeds (Controller.getUser Main.interactor "1" w) = true
  /\ Controller.getUser Main.interactor "2" w
     = (inl (Error "Item not found"), w).
Proof.
  cbv zeta. split; [reflexivity|].
  apply (proj1 (proj2 (Controller_getUser_outcome Main.viewModel "2"
           (mkWorld [User.new "1" "alice" "s3cr3t"] (heap Main.world) [])))).
  reflexivity.
Defined.

Lemma storage_append_only_witness :
  let w := mkWorld [User.new "1" "alice" "s3cr3t"] (heap Main.world) [] in
  let w' :=
    snd (performAll Main.viewModel
           [Store (InputData.new (Some "1") (Some "bob") (Some "pw"));
            Read (InputData.new (Some "3") None None);
            Store (InputData.new (Some "4") (Some "dan") (Some "pw"))] w) in
  Database.get "1" w = (inr (User.new "1" "alice" "s3cr3t"), w)
  /\ Database.get "1" w' = (inr (User.new "1" "alice" "s3cr3t"), w').
Proof.
  cbv zeta. split; [reflexivity|].
  apply (proj2 (storage_append_only Main.viewModel
           [Store (InputData.new (Some "1") (Some "bob") (Some "pw"));
            Read (InputData.new (Some "3") None None);
            Store (InputData.new (Some "4") (Some "dan") (Some "pw"))]
           (mkWorld [User.new "1" "alice" "s3cr3t"] (heap Main.world) []))).
  reflexivity.
Defined.
